(** * SATOSA account linking: a shallow embedding of
      [src/satosa/account_linking.py] and its specification.

    The module is a client of an external account-linking service.  Its
    three entry points ([__init__], [manage_al] and the callback endpoint
    [_handle_al_response]) are embedded below as computations in a small
    state/exception/trace monad: the state is the session store reached
    through [context.state], exceptions are Python exceptions, and the
    trace records what the module does to the outside world (the GET
    request, log records, the call of the continuation callback). *)

From stdpp Require Import base strings gmap list.
From Stdlib Require Import ZArith DecimalString.

Local Open Scope Z_scope.
Local Open Scope string_scope.

(** ** Python values *)

(** Values kept in the session store and produced by [to_dict]. *)
#[warnings="-register-all"]
Inductive pyval :=
| PBool (b : bool)
| PStr (s : string)
| PList (l : list pyval)
| PDict (d : gmap string pyval).

(** [STATE_KEY = "ACCOUNT_LINKING"] *)
Definition STATE_KEY : string := "ACCOUNT_LINKING".

(** Modelled from the spec: [satosa.state.State], the proxy's session
    store, "an opaque key-value store with add/get/remove semantics". *)
Abbreviation State := (gmap string pyval).

(** Modelled from the spec: [satosa.context.Context]; the module only
    ever touches its [state] attribute. *)
Record Context := mkContext { state : State }.

(** Modelled from the spec: [satosa.internal_data.AuthenticationInformation];
    the module only reads [issuer]. *)
Record AuthenticationInformation := mkAuthInfo { issuer : string }.

(** Modelled from the spec: [satosa.internal_data.InternalResponse], the
    spec's Identity "{issuer, subjectId, attributes: mapping of attribute
    name to ordered sequence of values}". *)
Record InternalResponse := mkInternalResponse {
  auth_info : AuthenticationInformation;
  user_id : string;
  attributes : gmap string (list string)
}.

(** Modelled from the spec: [satosa.response.Response] and its subclass
    [Redirect]; a redirect carries its target, any other response its
    message. *)
Inductive Response :=
| Redirect (location : string)
| PlainResponse (message : string).

(** Python exceptions the module raises or lets through. *)
Inductive exn :=
| SATOSAAuthenticationError (st : State) (msg : string)
| KeyError (key : string)
| TypeError
| AttributeError (name : string)
| IOError (path : string).

Inductive log_level := INFO | CRITICAL.

(** What [requests.get] does: it raises [requests.ConnectionError] or
    returns a response with a status code and a text. *)
Inductive http_result :=
| ConnectionError
| HttpResponse (status_code : Z) (text : string).

(** Observable actions of the module, in the order they happen. *)
Inductive event :=
| EvGet (url : string)
| EvLog (level : log_level) (msg : string)
| EvCallback (context : Context) (internal_response : InternalResponse).

(** ** The monad: session state, exceptions, trace *)

Record World := mkWorld { context : Context; trace : list event }.

Definition M (A : Type) : Type := World -> (exn + A) * World.

Definition ret {A} (a : A) : M A := fun w => (inr a, w).

Definition bind {A B} (m : M A) (k : A -> M B) : M B :=
  fun w => match m w with
           | (inl e, w') => (inl e, w')
           | (inr a, w') => k a w'
           end.

Definition raise {A} (e : exn) : M A := fun w => (inl e, w).

(** [try: m except KeyError: pass] *)
Definition try_except_KeyError_pass (m : M unit) : M unit :=
  fun w => match m w with
           | (inl (KeyError _), w') => (inr tt, w')
           | r => r
           end.

Definition lift {A} (r : exn + A) : M A := fun w => (r, w).

Definition emit (e : event) : M unit :=
  fun w => (inr tt, mkWorld (context w) (trace w ++ [e])).

Definition get_context : M Context := fun w => (inr (context w), w).

Definition put_state (st : State) : M unit :=
  fun w => (inr tt, mkWorld (mkContext st) (trace w)).

#[export] Instance M_ret : MRet M := @ret.
#[export] Instance M_bind : MBind M := fun A B k m => bind m k.

(** ** Collaborators *)

Module StateOps.

(** Modelled from the spec: [State.add(key, data)] "writes ... under the
    fixed state key (overwriting any prior value)". *)
Definition add (key : string) (data : pyval) : M unit :=
  c ← get_context; put_state (<[key := data]> (state c)).

(** Modelled from the spec: [State.get(key)] reads the value under the
    key; the spec makes the absence of the value an error, which for a
    Python mapping is [KeyError]. *)
Definition get (key : string) : M pyval :=
  c ← get_context;
  match state c !! key with
  | Some v => ret v
  | None => raise (KeyError key)
  end.

(** Modelled from the spec: [State.remove(key)] deletes the entry; on an
    absent key it raises the [KeyError] that [manage_al] catches. *)
Definition remove (key : string) : M unit :=
  c ← get_context;
  match state c !! key with
  | Some _ => put_state (delete key (state c))
  | None => raise (KeyError key)
  end.

End StateOps.

(** Modelled from the spec: [satosa_logging(logger, level, msg, state)]
    writes one log record. *)
Definition satosa_logging (level : log_level) (msg : string) : M unit :=
  emit (EvLog level msg).

(** Modelled from the spec: [InternalResponse.get_user_id]. *)
Definition get_user_id (ir : InternalResponse) : string := user_id ir.

(** Modelled from the spec: [InternalResponse.set_user_id]; the identity
    is "mutated only by replacing subjectId". *)
Definition set_user_id (uid : string) (ir : InternalResponse) : InternalResponse :=
  mkInternalResponse (auth_info ir) uid (attributes ir).

Definition encode_values (vs : list string) : pyval := PList (PStr <$> vs).

Definition decode_str (v : pyval) : option string :=
  match v with PStr s => Some s | _ => None end.

Definition decode_values (v : pyval) : option (list string) :=
  match v with PList l => mapM decode_str l | _ => None end.

(** Modelled from the spec: [InternalResponse.to_dict], "a serialization
    of Identity". *)
Definition to_dict (ir : InternalResponse) : pyval :=
  PDict (<["auth_info" := PDict {["issuer" := PStr (issuer (auth_info ir))]}]>
        (<["usr_id" := PStr (user_id ir)]>
        (<["attr" := PDict (encode_values <$> attributes ir)]> ∅))).

Definition subscript (v : pyval) (key : string) : exn + pyval :=
  match v with
  | PDict d => match d !! key with Some x => inr x | None => inl (KeyError key) end
  | _ => inl TypeError
  end.

Definition as_str (v : pyval) : exn + string :=
  match v with PStr s => inr s | _ => inl TypeError end.

Definition decode_attributes (v : pyval) : exn + gmap string (list string) :=
  match v with
  | PDict d =>
      if decide (map_Forall (fun _ x => is_Some (decode_values x)) d)
      then inr (omap decode_values d)
      else inl TypeError
  | _ => inl TypeError
  end.

Definition ebind {A B} (r : exn + A) (k : A -> exn + B) : exn + B :=
  match r with inl e => inl e | inr a => k a end.

(** Modelled from the spec: [InternalResponse.from_dict], which
    "reconstructs the Identity" from its serialization. *)
Definition from_dict (v : pyval) : exn + InternalResponse :=
  ebind (subscript v "auth_info") (fun ai =>
  ebind (subscript ai "issuer") (fun iss =>
  ebind (as_str iss) (fun iss =>
  ebind (subscript v "usr_id") (fun uid =>
  ebind (as_str uid) (fun uid =>
  ebind (subscript v "attr") (fun attr =>
  ebind (decode_attributes attr) (fun attr =>
  inr (mkInternalResponse (mkAuthInfo iss) uid attr)))))))).

(** Modelled from the spec: [satosa.satosa_config.SATOSAConfig], the
    "configuration surface {enable: bool (default true if section present),
    api_url, redirect_url, sign_key (path to private key material), proxy
    base URL}"; a missing entry is [None]. *)
Record ALConfig := mkALConfig {
  cfg_enable : option bool;
  cfg_api_url : option string;
  cfg_redirect_url : option string;
  cfg_sign_key : option string
}.

Record SATOSAConfig := mkConfig {
  BASE : option string;
  ACCOUNT_LINKING : option ALConfig
}.

Definition item {A} (key : string) (o : option A) : M A :=
  match o with Some a => ret a | None => raise (KeyError key) end.

(** [jwkest.jwk.RSAKey(key=..., use=..., alg=...)] *)
Record RSAKey {K : Type} := mkRSAKey { key : K; use : string; alg : string }.
Arguments RSAKey : clear implicits.
Arguments mkRSAKey {K} key use alg.

(** The attributes [__init__] sets only when linking is enabled. *)
Record Settings {K : Type} := mkSettings {
  proxy_base : string;
  api_url : string;
  redirect_url : string;
  signing_key : RSAKey K;
  endpoint : string
}.
Arguments Settings : clear implicits.
Arguments mkSettings {K} proxy_base api_url redirect_url signing_key endpoint.

(** An [AccountLinkingModule] object.  A disabled module has none of the
    attributes of [Settings]: reading one raises [AttributeError]. *)
Record AccountLinkingModule {K : Type} := mkModule {
  config : SATOSAConfig;
  callback_func : Context -> InternalResponse -> Response;
  enabled : bool;
  settings : option (Settings K)
}.
Arguments AccountLinkingModule : clear implicits.
Arguments mkModule {K} config callback_func enabled settings.

(** ** The module *)

(** Libraries and the network, outside the repository. *)
Class Collaborators := {
  KeyMaterial : Type;
  (** [jwkest.jwk.rsa_load(path)] *)
  rsa_load : string -> exn + KeyMaterial;
  (** [json.dumps] of a dict of strings, entries in insertion order *)
  json_dumps : list (string * string) -> string;
  (** [JWS(msg, alg=alg).sign_compact(keys)] *)
  sign_compact : string -> string -> list (RSAKey KeyMaterial) -> string;
  (** [requests.get(url)] *)
  requests_get : string -> http_result
}.

Section AccountLinking.

Context `{env : Collaborators}.

Local Abbreviation K := KeyMaterial.
Local Abbreviation Module' := (AccountLinkingModule KeyMaterial).

Definition getattr (self : Module') (name : string) : M (Settings K) :=
  match settings self with
  | Some a => ret a
  | None => raise (AttributeError name)
  end.

(** ["%s" % n] for an [int] *)
Definition str_of_int (n : Z) : string := NilZero.string_of_int (Z.to_int n).

(** ["ACCOUNT_LINKING" in config and ("enable" not in
    config["ACCOUNT_LINKING"] or config["ACCOUNT_LINKING"]["enable"])] *)
Definition linking_enabled (config : SATOSAConfig) : bool :=
  match ACCOUNT_LINKING config with
  | Some al => match cfg_enable al with None => true | Some b => b end
  | None => false
  end.

(** [AccountLinkingModule.__init__] *)
Definition __init__ (config : SATOSAConfig)
    (callback_func : Context -> InternalResponse -> Response) : M Module' :=
  let enabled := linking_enabled config in
  if enabled then
    proxy_base ← item "BASE" (BASE config);
    al ← item "ACCOUNT_LINKING" (ACCOUNT_LINKING config);
    api_url ← item "api_url" (cfg_api_url al);
    redirect_url ← item "redirect_url" (cfg_redirect_url al);
    path ← item "sign_key" (cfg_sign_key al);
    k ← lift (rsa_load path);
    let signing_key := mkRSAKey k "sig" "RS256" in
    let endpoint := "/handle_account_linking" in
    emit (EvLog INFO "Account linking is active");;
    mret (mkModule config callback_func enabled
            (Some (mkSettings proxy_base api_url redirect_url signing_key endpoint)))
  else
    emit (EvLog INFO "Account linking is not active");;
    mret (mkModule config callback_func enabled None).

(** [self.callback_func(context, internal_response)] *)
Definition call_callback (self : Module') (internal_response : InternalResponse)
    : M Response :=
  c ← get_context;
  emit (EvCallback c internal_response);;
  mret (callback_func self c internal_response).

(** The dict [data] built by [_get_uuid]. *)
Definition link_query (a : Settings K) (issuer id : string) : list (string * string) :=
  [("idp", issuer); ("id", id);
   ("redirect_endpoint", proxy_base a +:+ "/account_linking" +:+ endpoint a)].

(** The URL requested by [_get_uuid]. *)
Definition get_id_request (a : Settings K) (issuer id : string) : string :=
  let jws := sign_compact (json_dumps (link_query a issuer id))
               (alg (signing_key a)) [signing_key a] in
  api_url a +:+ "/get_id?jwt=" +:+ jws.

(** The URL [manage_al] has [_get_uuid] request for an identity. *)
Definition query_for (a : Settings K) (ir : InternalResponse) : string :=
  get_id_request a (issuer (auth_info ir)) (get_user_id ir).

(** [AccountLinkingModule._get_uuid] *)
Definition _get_uuid (self : Module') (issuer id : string) : M (Z * string) :=
  a ← getattr self "proxy_base";
  let request := get_id_request a issuer id in
  emit (EvGet request);;
  match requests_get request with
  | ConnectionError =>
      let msg := "Could not connect to account linking service" in
      satosa_logging CRITICAL msg;;
      c ← get_context;
      raise (SATOSAAuthenticationError (state c) msg)
  | HttpResponse status_code text =>
      if negb (bool_decide (status_code ∈ [200; 404])) then
        let msg := "Got status code '" +:+ str_of_int status_code
                   +:+ "' from account linking service" in
        satosa_logging CRITICAL msg;;
        c ← get_context;
        raise (SATOSAAuthenticationError (state c) msg)
      else mret (status_code, text)
  end.

(** [AccountLinkingModule._approve_new_id] *)
Definition _approve_new_id (self : Module') (internal_response : InternalResponse)
    (ticket : string) : M Response :=
  satosa_logging INFO "A new ID must be linked by the AL service";;
  StateOps.add STATE_KEY (to_dict internal_response);;
  a ← getattr self "redirect_url";
  mret (Redirect (redirect_url a +:+ "/" +:+ ticket)).

(** [AccountLinkingModule.manage_al] *)
Definition manage_al (self : Module') (internal_response : InternalResponse)
    : M Response :=
  if negb (enabled self) then call_callback self internal_response
  else
    let issuer := issuer (auth_info internal_response) in
    let id := get_user_id internal_response in
    '(status_code, message) ← _get_uuid self issuer id;
    if bool_decide (status_code = 200) then
      satosa_logging INFO "issuer/id pair is linked in AL service";;
      let internal_response := set_user_id message internal_response in
      try_except_KeyError_pass (StateOps.remove STATE_KEY);;
      call_callback self internal_response
    else _approve_new_id self internal_response message.

(** [AccountLinkingModule._handle_al_response] *)
Definition _handle_al_response (self : Module') : M Response :=
  saved_state ← StateOps.get STATE_KEY;
  internal_response ← lift (from_dict saved_state);
  manage_al self internal_response.

(** [AccountLinkingModule.register_endpoints]: the URL pattern bound to
    [_handle_al_response]. *)
Definition register_endpoints (self : Module') : M (list string) :=
  a ← getattr self "endpoint";
  mret ["^account_linking" +:+ endpoint a +:+ "$"].

(** The load as the specification words it, "loadAndClear() reads the
    value under that key and removes it": compared with the code's load
    below. *)
Definition load_and_clear : M pyval :=
  saved_state ← StateOps.get STATE_KEY;
  StateOps.remove STATE_KEY;;
  mret saved_state.

(** The callback handler as the specification words it: "Load and clear
    PendingLinkState; ... Otherwise reconstruct the Identity and re-enter
    QUERYING with it". *)
Definition spec_handle_al_response (self : Module') : M Response :=
  saved_state ← load_and_clear;
  internal_response ← lift (from_dict saved_state);
  manage_al self internal_response.

(** The URLs of the GET requests in a trace. *)
Definition requests_of (t : list event) : list string :=
  omap (fun e => match e with EvGet url => Some url | _ => None end) t.

(** The identities handed to the continuation callback in a trace. *)
Definition callbacks_of (t : list event) : list InternalResponse :=
  omap (fun e => match e with EvCallback _ ir => Some ir | _ => None end) t.

(** The outbound request as the specification words it: a GET to
    "{serviceApiUrl}/get_id?jwt={J}", [J] the compact JWS whose signed
    payload is the JSON object with "idp", "id" and "redirect_endpoint". *)
Definition spec_request (serviceApiUrl proxyBaseUrl : string)
    (signingKey : RSAKey K) (issuer subjectId : string) : string :=
  let payload :=
    json_dumps [("idp", issuer); ("id", subjectId);
                ("redirect_endpoint",
                 proxyBaseUrl +:+ "/account_linking/handle_account_linking")] in
  serviceApiUrl +:+ "/get_id?jwt=" +:+ sign_compact payload "RS256" [signingKey].

(** What a run from world [w] to world [w'] added to the trace. *)
Definition new_events (w w' : World) : list event :=
  drop (length (trace w)) (trace w').

(** Two identities that differ at most in the user id. *)
Definition same_but_user_id (ir ir' : InternalResponse) : Prop :=
  auth_info ir' = auth_info ir /\ attributes ir' = attributes ir.

(** The service outcomes [_get_uuid] turns into an authentication error:
    no connection, or a status other than 200 and 404. *)
Definition service_failure (r : http_result) : Prop :=
  match r with
  | ConnectionError => True
  | HttpResponse status_code _ => status_code <> 200 /\ status_code <> 404
  end.

(** The reason carried by the authentication error. *)
Definition failure_reason (r : http_result) : string :=
  match r with
  | ConnectionError => "Could not connect to account linking service"
  | HttpResponse status_code _ =>
      "Got status code '" +:+ str_of_int status_code
      +:+ "' from account linking service"
  end.

(** The messages of the critical log records in a trace. *)
Definition criticals_of (t : list event) : list string :=
  omap (fun e => match e with EvLog CRITICAL msg => Some msg | _ => None end) t.

End AccountLinking.

(** ** A concrete deployment, used to run the module *)

Module Example.

Definition render_entry (kv : string * string) : string :=
  "'" +:+ kv.1 +:+ "': '" +:+ kv.2 +:+ "'".

(** A stand-in environment: the service always answers [r]. *)
Definition collaborators (r : http_result) : Collaborators := {|
  KeyMaterial := string;
  rsa_load path := inr ("key@" +:+ path);
  json_dumps d := "{" +:+ String.concat ", " (render_entry <$> d) +:+ "}";
  sign_compact msg alg keys := alg +:+ "." +:+ msg +:+ ".sig";
  requests_get _ := r
|}.

Definition cfg (enable : option bool) : SATOSAConfig :=
  mkConfig (Some "https://proxy.example")
    (Some (mkALConfig enable (Some "https://link.example/api")
             (Some "https://link.example/approve") (Some "/etc/al.key"))).

Definition callback (c : Context) (ir : InternalResponse) : Response :=
  PlainResponse ("authenticated as " +:+ user_id ir).

Definition set : Settings string :=
  mkSettings "https://proxy.example" "https://link.example/api"
    "https://link.example/approve" (mkRSAKey "key@/etc/al.key" "sig" "RS256")
    "/handle_account_linking".

Definition self_on : AccountLinkingModule string :=
  mkModule (cfg None) callback true (Some set).

Definition self_off : AccountLinkingModule string :=
  mkModule (cfg (Some false)) callback false None.

Definition identity : InternalResponse :=
  mkInternalResponse (mkAuthInfo "https://idp.example") "abc123"
    {[ "mail" := ["a@idp.example"] ]}.

Definition fresh : World := mkWorld (mkContext ∅) [].

Definition pending : World :=
  mkWorld (mkContext {[ STATE_KEY := to_dict identity ]}) [].

(** An environment whose key file cannot be read. *)
Definition no_key_file : Collaborators := {|
  KeyMaterial := string;
  rsa_load path := inl (IOError path);
  json_dumps d := "{" +:+ String.concat ", " (render_entry <$> d) +:+ "}";
  sign_compact msg alg keys := alg +:+ "." +:+ msg +:+ ".sig";
  requests_get _ := ConnectionError
|}.

(** A configuration that enables linking but lacks [api_url]. *)
Definition cfg_without_api_url : SATOSAConfig :=
  mkConfig (Some "https://proxy.example")
    (Some (mkALConfig None None (Some "https://link.example/approve")
             (Some "/etc/al.key"))).

(** A session with a pending link and an entry of another module. *)
Definition busy : World :=
  mkWorld (mkContext (<[ "CONSENT" := PStr "given" ]>
                        {[ STATE_KEY := to_dict identity ]})) [].

End Example.


(** ** Properties *)

Section Properties.

Context `{env : Collaborators}.

Local Abbreviation Module' := (AccountLinkingModule KeyMaterial).

Implicit Types (self : Module') (a : Settings KeyMaterial)
  (ir : InternalResponse) (w : World) (st : State).

(** *** The serialization round trip *)

Lemma decode_encode_values (vs : list string) :
  decode_values (encode_values vs) = Some vs.
Proof. unfold decode_values, encode_values. by apply mapM_fmap_Some. Qed.

Lemma decode_encode_attributes (m : gmap string (list string)) :
  decode_attributes (PDict (encode_values <$> m)) = inr m.
Proof.
  unfold decode_attributes. rewrite decide_True.
  - f_equal. apply map_eq; intros i.
    rewrite lookup_omap, lookup_fmap.
    destruct (m !! i); simpl; [apply decode_encode_values | done].
  - intros i x. rewrite lookup_fmap.
    destruct (m !! i); simpl; [| done].
    intros [= <-]. rewrite decode_encode_values. by eexists.
Qed.

Lemma from_dict_to_dict ir : from_dict (to_dict ir) = inr ir.
Proof.
  destruct ir as [[iss] uid attrs].
  unfold from_dict, to_dict, subscript; simpl.
  rewrite lookup_insert_eq; simpl.
  rewrite lookup_singleton_eq; simpl.
  rewrite lookup_insert_ne, lookup_insert_eq by done; simpl.
  rewrite !lookup_insert_ne, lookup_insert_eq by done; simpl.
  pose proof (decode_encode_attributes attrs) as E.
  unfold decode_attributes in E. by rewrite E.
Qed.

(** *** What one query does *)

Lemma status_expected (status_code : Z) :
  status_code ∈ [200; 404] <-> status_code = 200 \/ status_code = 404.
Proof.
  rewrite !elem_of_cons, elem_of_nil. tauto.
Qed.

Local Arguments _get_uuid : simpl never.
Local Arguments manage_al : simpl never.
Local Arguments get_id_request : simpl never.
Local Arguments query_for : simpl never.
Local Arguments to_dict : simpl never.
Local Arguments from_dict : simpl never.

Ltac run :=
  repeat progress
    unfold mbind, mret, M_bind, M_ret, bind, ret, raise, emit, lift,
      get_context, put_state, try_except_KeyError_pass, satosa_logging,
      item, getattr, call_callback, StateOps.add, StateOps.get,
      StateOps.remove;
  simpl.

Lemma app_one {A} (l : list A) x ys :
  ((l ++ [x]) ++ ys = l ++ x :: ys)%list.
Proof. by rewrite <- app_assoc. Qed.

Ltac finish := simpl; unfold query_for; rewrite ?app_one; try done.

Lemma _get_uuid_answer self a iss id w status_code text :
  settings self = Some a ->
  requests_get (get_id_request a iss id) = HttpResponse status_code text ->
  status_code = 200 \/ status_code = 404 ->
  _get_uuid self iss id w =
    (inr (status_code, text),
     mkWorld (context w) (trace w ++ [EvGet (get_id_request a iss id)])).
Proof.
  intros Ha Hr Hs. unfold _get_uuid, getattr. rewrite Ha.
  run. rewrite Hr.
  rewrite bool_decide_true; [done |].
  by apply status_expected.
Qed.

Lemma _get_uuid_failure self a iss id w :
  settings self = Some a ->
  let r := requests_get (get_id_request a iss id) in
  service_failure r ->
  _get_uuid self iss id w =
    (inl (SATOSAAuthenticationError (state (context w)) (failure_reason r)),
     mkWorld (context w)
       (trace w ++ [EvGet (get_id_request a iss id);
                    EvLog CRITICAL (failure_reason r)])).
Proof.
  intros Ha r Hf. unfold _get_uuid, getattr. rewrite Ha.
  run. fold r. destruct r as [| status_code text]; simpl.
  - by rewrite app_one.
  - destruct Hf as [H200 H404].
    rewrite bool_decide_false; [simpl; by rewrite app_one |].
    rewrite status_expected. tauto.
Qed.

(** *** The three outcomes of [manage_al] when linking is enabled *)

Lemma manage_al_200 self a ir w U :
  enabled self = true ->
  settings self = Some a ->
  requests_get (query_for a ir) = HttpResponse 200 U ->
  let c' := mkContext (delete STATE_KEY (state (context w))) in
  manage_al self ir w =
    (inr (callback_func self c' (set_user_id U ir)),
     mkWorld c'
       (trace w ++ [EvGet (query_for a ir);
                    EvLog INFO "issuer/id pair is linked in AL service";
                    EvCallback c' (set_user_id U ir)])).
Proof.
  intros Hen Ha Hr c'. unfold manage_al. rewrite Hen.
  run. rewrite (_get_uuid_answer self a _ _ w 200 U Ha Hr) by tauto.
  subst c'. destruct w as [[st] t]. run.
  destruct (st !! STATE_KEY) eqn:E.
  - finish.
  - rewrite (delete_id _ _ E). finish.
Qed.

Lemma manage_al_404 self a ir w T :
  enabled self = true ->
  settings self = Some a ->
  requests_get (query_for a ir) = HttpResponse 404 T ->
  manage_al self ir w =
    (inr (Redirect (redirect_url a +:+ "/" +:+ T)),
     mkWorld (mkContext (<[STATE_KEY := to_dict ir]> (state (context w))))
       (trace w ++ [EvGet (query_for a ir);
                    EvLog INFO "A new ID must be linked by the AL service"])).
Proof.
  intros Hen Ha Hr. unfold manage_al. rewrite Hen.
  run. rewrite (_get_uuid_answer self a _ _ w 404 T Ha Hr) by tauto.
  unfold _approve_new_id. run. rewrite Ha. finish.
Qed.

Lemma manage_al_failure self a ir w :
  enabled self = true ->
  settings self = Some a ->
  let r := requests_get (query_for a ir) in
  service_failure r ->
  manage_al self ir w =
    (inl (SATOSAAuthenticationError (state (context w)) (failure_reason r)),
     mkWorld (context w)
       (trace w ++ [EvGet (query_for a ir);
                    EvLog CRITICAL (failure_reason r)])).
Proof.
  intros Hen Ha r Hf. unfold manage_al. rewrite Hen.
  run. rewrite (_get_uuid_failure self a _ _ w Ha Hf). finish.
Qed.

Lemma manage_al_off self ir w :
  enabled self = false ->
  manage_al self ir w =
    (inr (callback_func self (context w) ir),
     mkWorld (context w) (trace w ++ [EvCallback (context w) ir])).
Proof. intros Hen. unfold manage_al. rewrite Hen. run. finish. Qed.

(** *** The callback endpoint *)

Lemma handler_unfold self w :
  _handle_al_response self w =
    match state (context w) !! STATE_KEY with
    | Some saved_state =>
        match from_dict saved_state with
        | inr ir => manage_al self ir w
        | inl e => (inl e, w)
        end
    | None => (inl (KeyError STATE_KEY), w)
    end.
Proof.
  unfold _handle_al_response. run.
  destruct (state (context w) !! STATE_KEY) as [d |]; simpl; [| done].
  by destruct (from_dict d).
Qed.

(** *** Construction *)

Lemma init_off config cb w :
  linking_enabled config = false ->
  __init__ config cb w =
    (inr (mkModule config cb false None),
     mkWorld (context w) (trace w ++ [EvLog INFO "Account linking is not active"])).
Proof. intros Hoff. unfold __init__. by rewrite Hoff. Qed.

Lemma init_cases config cb w self w' :
  __init__ config cb w = (inr self, w') ->
  (enabled self = false /\ settings self = None) \/
  exists base al api red path k,
    BASE config = Some base /\ ACCOUNT_LINKING config = Some al /\
    cfg_api_url al = Some api /\ cfg_redirect_url al = Some red /\
    cfg_sign_key al = Some path /\ rsa_load path = inr k /\
    self = mkModule config cb true
             (Some (mkSettings base api red (mkRSAKey k "sig" "RS256")
                      "/handle_account_linking")).
Proof.
  unfold __init__. destruct (linking_enabled config) eqn:Hon.
  - destruct config as [[base |] [[en [api |] [red |] [path |]] |]];
      run; try discriminate.
    destruct (rsa_load path) as [e | k] eqn:Hk; simpl; [discriminate |].
    intros [= <- <-]. right.
    by exists base, (mkALConfig en (Some api) (Some red) (Some path)),
              api, red, path, k.
  - run. intros [= <- <-]. by left.
Qed.

(** *** Traces *)

Lemma new_events_app w c t :
  new_events w (mkWorld c (trace w ++ t)) = t.
Proof. unfold new_events; simpl. by rewrite drop_app_length. Qed.

Lemma new_events_same w : new_events w w = [].
Proof. unfold new_events. by rewrite drop_all. Qed.

Lemma service_cases (r : http_result) :
  (exists U, r = HttpResponse 200 U) \/ (exists T, r = HttpResponse 404 T) \/
  service_failure r.
Proof.
  destruct r as [| status_code text]; [by right; right |].
  destruct (decide (status_code = 200)) as [-> | H200]; [left; by eexists |].
  destruct (decide (status_code = 404)) as [-> | H404]; [right; left; by eexists |].
  by right; right.
Qed.

Lemma manage_al_no_settings self ir w :
  enabled self = true ->
  settings self = None ->
  manage_al self ir w = (inl (AttributeError "proxy_base"), w).
Proof.
  intros Hen Ha. unfold manage_al. rewrite Hen. unfold _get_uuid. run.
  by rewrite Ha.
Qed.

Lemma manage_al_requests self a ir w :
  enabled self = true ->
  settings self = Some a ->
  requests_of (new_events w (manage_al self ir w).2) = [query_for a ir].
Proof.
  intros Hen Ha.
  destruct (service_cases (requests_get (query_for a ir)))
    as [[U Hr] | [[T Hr] | Hf]].
  - rewrite (manage_al_200 self a ir w U Hen Ha Hr); simpl.
    by rewrite new_events_app.
  - rewrite (manage_al_404 self a ir w T Hen Ha Hr); simpl.
    by rewrite new_events_app.
  - rewrite (manage_al_failure self a ir w Hen Ha Hf); simpl.
    by rewrite new_events_app.
Qed.

Lemma _get_uuid_requests self a iss id w :
  settings self = Some a ->
  requests_of (new_events w (_get_uuid self iss id w).2) = [get_id_request a iss id].
Proof.
  intros Ha.
  destruct (service_cases (requests_get (get_id_request a iss id)))
    as [[U Hr] | [[T Hr] | Hf]].
  - rewrite (_get_uuid_answer self a iss id w 200 U Ha Hr) by tauto; simpl.
    by rewrite new_events_app.
  - rewrite (_get_uuid_answer self a iss id w 404 T Ha Hr) by tauto; simpl.
    by rewrite new_events_app.
  - rewrite (_get_uuid_failure self a iss id w Ha Hf); simpl.
    by rewrite new_events_app.
Qed.

Lemma manage_al_callbacks self ir w :
  Forall (same_but_user_id ir)
    (callbacks_of (new_events w (manage_al self ir w).2)).
Proof.
  destruct (enabled self) eqn:Hen.
  - destruct (settings self) as [a |] eqn:Ha.
    + destruct (service_cases (requests_get (query_for a ir)))
        as [[U Hr] | [[T Hr] | Hf]].
      * rewrite (manage_al_200 self a ir w U Hen Ha Hr); simpl.
        rewrite new_events_app; simpl. by repeat constructor.
      * rewrite (manage_al_404 self a ir w T Hen Ha Hr); simpl.
        rewrite new_events_app; simpl. constructor.
      * rewrite (manage_al_failure self a ir w Hen Ha Hf); simpl.
        rewrite new_events_app; simpl. constructor.
    + rewrite (manage_al_no_settings self ir w Hen Ha); simpl.
      rewrite new_events_same. constructor.
  - rewrite (manage_al_off self ir w Hen); simpl.
    rewrite new_events_app; simpl. by repeat constructor.
Qed.

(** ** The claims *)

(** C1: when the service answers the query for an identity with status 200
    and body [U], [manage_al] replaces the identity's user id with [U],
    removes the pending-link state under [STATE_KEY] (whether or not it was
    there) and calls the continuation callback with the updated identity;
    the session then holds no pending state. *)
Theorem manage_al_linked self a ir w U :
  enabled self = true ->
  settings self = Some a ->
  requests_get (query_for a ir) = HttpResponse 200 U ->
  let ir' := set_user_id U ir in
  let c' := mkContext (delete STATE_KEY (state (context w))) in
  manage_al self ir w =
    (inr (callback_func self c' ir'),
     mkWorld c'
       (trace w ++ [EvGet (query_for a ir);
                    EvLog INFO "issuer/id pair is linked in AL service";
                    EvCallback c' ir']))
  /\ get_user_id ir' = U
  /\ state c' !! STATE_KEY = None
  /\ state (context (manage_al self ir w).2) !! STATE_KEY = None.
Proof.
  intros Hen Ha Hr ir' c'.
  pose proof (manage_al_200 self a ir w U Hen Ha Hr) as Hrun.
  split; [exact Hrun |]. split; [done |].
  split; [apply lookup_delete_eq |].
  rewrite Hrun. apply lookup_delete_eq.
Qed.

(** C2: when the service answers with status 404 and body [T], [manage_al]
    saves the serialized identity, as it was before the query, under
    [STATE_KEY] (overwriting what was there) and returns a redirect to the
    configured redirect URL followed by "/" and [T]; the pending state then
    deserializes to the pre-query identity. *)
Theorem manage_al_pending_approval self a ir w T :
  enabled self = true ->
  settings self = Some a ->
  requests_get (query_for a ir) = HttpResponse 404 T ->
  let w' := (manage_al self ir w).2 in
  (manage_al self ir w).1 = inr (Redirect (redirect_url a +:+ "/" +:+ T))
  /\ state (context w') = <[STATE_KEY := to_dict ir]> (state (context w))
  /\ state (context w') !! STATE_KEY = Some (to_dict ir)
  /\ from_dict (to_dict ir) = inr ir
  /\ callbacks_of (new_events w w') = [].
Proof.
  intros Hen Ha Hr w'. subst w'.
  rewrite (manage_al_404 self a ir w T Hen Ha Hr); simpl.
  repeat split; try done.
  - apply lookup_insert_eq.
  - apply from_dict_to_dict.
  - by rewrite new_events_app.
Qed.

(** C3 (as the code has it): the callback handler reads the pending-link
    state under [STATE_KEY] and leaves it in the session store: the
    identity rebuilt from it goes to [manage_al] in the very world the
    handler was entered in.  Without a pending state the handler raises
    (the store's [KeyError]) and does nothing else. *)
Theorem handler_reads_without_removing self w :
  (StateOps.get STATE_KEY w).2 = w
  /\ _handle_al_response self w =
      match state (context w) !! STATE_KEY with
      | Some saved_state =>
          match from_dict saved_state with
          | inr ir => manage_al self ir w
          | inl e => (inl e, w)
          end
      | None => (inl (KeyError STATE_KEY), w)
      end.
Proof.
  split; [| apply handler_unfold].
  run. by destruct (state (context w) !! STATE_KEY).
Qed.

(** C4: when the service cannot be reached, or answers with a status other
    than 200 and 404, the query raises an authentication error that carries
    the reason, and the session state is left as it was: nothing is
    saved. *)
Theorem service_failure_is_fatal self a ir w :
  enabled self = true ->
  settings self = Some a ->
  let r := requests_get (query_for a ir) in
  service_failure r ->
  _get_uuid self (issuer (auth_info ir)) (get_user_id ir) w =
    (inl (SATOSAAuthenticationError (state (context w)) (failure_reason r)),
     mkWorld (context w)
       (trace w ++ [EvGet (query_for a ir); EvLog CRITICAL (failure_reason r)]))
  /\ manage_al self ir w =
    (inl (SATOSAAuthenticationError (state (context w)) (failure_reason r)),
     mkWorld (context w)
       (trace w ++ [EvGet (query_for a ir); EvLog CRITICAL (failure_reason r)]))
  /\ context (manage_al self ir w).2 = context w.
Proof.
  intros Hen Ha r Hf.
  pose proof (manage_al_failure self a ir w Hen Ha Hf) as Hrun.
  split; [exact (_get_uuid_failure self a _ _ w Ha Hf) |].
  split; [exact Hrun |]. fold r in Hrun. by rewrite Hrun.
Qed.

(** C5: a configuration that disables account linking yields a module
    whose [manage_al] hands the identity, unmodified, to the continuation
    callback, issues no request and leaves the session state alone. *)
Theorem disabled_is_pass_through config cb w0 :
  linking_enabled config = false ->
  exists self w1,
    __init__ config cb w0 = (inr self, w1) /\
    enabled self = false /\
    forall ir w,
      manage_al self ir w =
        (inr (cb (context w) ir),
         mkWorld (context w) (trace w ++ [EvCallback (context w) ir]))
      /\ callbacks_of (new_events w (manage_al self ir w).2) = [ir]
      /\ requests_of (new_events w (manage_al self ir w).2) = []
      /\ context (manage_al self ir w).2 = context w.
Proof.
  intros Hoff. eexists _, _. split; [by apply init_off |]. split; [done |].
  intros ir w.
  rewrite (manage_al_off (mkModule config cb false None) ir w eq_refl); simpl.
  by rewrite new_events_app.
Qed.

(** C6: the request [_get_uuid] issues for an issuer and a user id is a
    GET to the configured API URL followed by "/get_id?jwt=" and the
    compact JWS of the JSON object with "idp" the issuer, "id" the user id
    and "redirect_endpoint" the proxy base URL followed by
    "/account_linking/handle_account_linking". *)
Theorem outbound_request config cb w0 self w1 a :
  __init__ config cb w0 = (inr self, w1) ->
  settings self = Some a ->
  BASE config = Some (proxy_base a)
  /\ (exists al, ACCOUNT_LINKING config = Some al /\
                 cfg_api_url al = Some (api_url a))
  /\ (forall iss id w,
        requests_of (new_events w (_get_uuid self iss id w).2) =
          [spec_request (api_url a) (proxy_base a) (signing_key a) iss id])
  /\ (forall ir w,
        requests_of (new_events w (manage_al self ir w).2) =
          [spec_request (api_url a) (proxy_base a) (signing_key a)
             (issuer (auth_info ir)) (user_id ir)]).
Proof.
  intros Hinit Ha.
  destruct (init_cases _ _ _ _ _ Hinit)
    as [[_ Hnone] | (base & al & api & red & path & k
                     & Hb & Hal & Hapi & _ & _ & _ & Hself)];
    [congruence |].
  assert (enabled self = true) as Hen by (by rewrite Hself).
  assert (a = mkSettings base api red (mkRSAKey k "sig" "RS256")
                "/handle_account_linking") as Hset.
  { rewrite Hself in Ha. simpl in Ha. by injection Ha. }
  split; [by rewrite Hset |]. split; [exists al; by rewrite Hset |]. split.
  - intros iss id w. rewrite (_get_uuid_requests self a iss id w Ha).
    by rewrite Hset.
  - intros ir w. rewrite (manage_al_requests self a ir w Hen Ha).
    by rewrite Hset.
Qed.

(** C7: when the pending-link state is the serialization of an identity,
    the callback handler rebuilds that identity and runs [manage_al] on it:
    it issues the query [manage_al] issues for that identity, and when the
    answer is 200 with body [U] the user id becomes [U], the pending state
    is cleared and the callback is called, as in the direct case. *)
Theorem resumption_equivalence self a ir w :
  enabled self = true ->
  settings self = Some a ->
  state (context w) !! STATE_KEY = Some (to_dict ir) ->
  _handle_al_response self w = manage_al self ir w
  /\ requests_of (new_events w (_handle_al_response self w).2) = [query_for a ir]
  /\ forall U,
       requests_get (query_for a ir) = HttpResponse 200 U ->
       let ir' := set_user_id U ir in
       let c' := mkContext (delete STATE_KEY (state (context w))) in
       _handle_al_response self w =
         (inr (callback_func self c' ir'),
          mkWorld c'
            (trace w ++ [EvGet (query_for a ir);
                         EvLog INFO "issuer/id pair is linked in AL service";
                         EvCallback c' ir']))
       /\ state c' !! STATE_KEY = None
       /\ forall w0,
            state (context w0) !! STATE_KEY = None ->
            state (context w) = <[STATE_KEY := to_dict ir]> (state (context w0)) ->
            trace w = trace w0 ->
            _handle_al_response self w = manage_al self ir w0.
Proof.
  intros Hen Ha Hst.
  assert (_handle_al_response self w = manage_al self ir w) as Heq.
  { rewrite handler_unfold, Hst. by rewrite from_dict_to_dict. }
  split; [exact Heq |]. split.
  { rewrite Heq. by apply manage_al_requests. }
  intros U Hr ir' c'. rewrite Heq.
  split; [exact (manage_al_200 self a ir w U Hen Ha Hr) |].
  split; [apply lookup_delete_eq |].
  intros w0 Hnone Hw Ht.
  rewrite (manage_al_200 self a ir w U Hen Ha Hr).
  rewrite (manage_al_200 self a ir w0 U Hen Ha Hr).
  rewrite Hw, Ht, delete_insert_eq. done.
Qed.

(** C8: whatever the service answers, an identity handed to the
    continuation callback has the issuer and the attributes of the input
    identity; on the callback endpoint the input identity is the one rebuilt
    from the pending state.  Only the user id can differ. *)
Theorem identity_frame self ir w :
  Forall (same_but_user_id ir)
    (callbacks_of (new_events w (manage_al self ir w).2))
  /\ (forall uid, same_but_user_id ir (set_user_id uid ir))
  /\ from_dict (to_dict ir) = inr ir
  /\ match state (context w) !! STATE_KEY with
     | Some saved_state =>
         match from_dict saved_state with
         | inr ir0 =>
             Forall (same_but_user_id ir0)
               (callbacks_of (new_events w (_handle_al_response self w).2))
         | inl _ =>
             callbacks_of (new_events w (_handle_al_response self w).2) = []
         end
     | None => callbacks_of (new_events w (_handle_al_response self w).2) = []
     end.
Proof.
  split; [apply manage_al_callbacks |]. split; [done |].
  split; [apply from_dict_to_dict |].
  rewrite handler_unfold.
  destruct (state (context w) !! STATE_KEY) as [d |]; simpl.
  - destruct (from_dict d) as [e | ir0]; simpl.
    + by rewrite new_events_same.
    + apply manage_al_callbacks.
  - by rewrite new_events_same.
Qed.

(** C9: when the session holds nothing under [STATE_KEY], the clear step of
    the 200 path does not raise -- the store's [KeyError] is caught -- and
    the rest of the path is as usual: the user id is replaced and the
    callback called, the session state being what it was. *)
Theorem clear_absent_is_tolerated self a ir w U :
  state (context w) !! STATE_KEY = None ->
  enabled self = true ->
  settings self = Some a ->
  requests_get (query_for a ir) = HttpResponse 200 U ->
  StateOps.remove STATE_KEY w = (inl (KeyError STATE_KEY), w)
  /\ try_except_KeyError_pass (StateOps.remove STATE_KEY) w = (inr tt, w)
  /\ manage_al self ir w =
      (inr (callback_func self (context w) (set_user_id U ir)),
       mkWorld (context w)
         (trace w ++ [EvGet (query_for a ir);
                      EvLog INFO "issuer/id pair is linked in AL service";
                      EvCallback (context w) (set_user_id U ir)])).
Proof.
  intros Hnone Hen Ha Hr.
  split; [run; by rewrite Hnone |]. split; [run; by rewrite Hnone |].
  rewrite (manage_al_200 self a ir w U Hen Ha Hr).
  rewrite (delete_id _ _ Hnone). by destruct w as [[st] t].
Qed.

(** C10: on the callback endpoint, when the query made again for the saved
    identity fails (no connection, or a status other than 200 and 404), the
    authentication error is raised and the pending-link state is still in
    the session store, unchanged. *)
Theorem failed_resumption_keeps_pending_state self a saved_state ir w :
  enabled self = true ->
  settings self = Some a ->
  state (context w) !! STATE_KEY = Some saved_state ->
  from_dict saved_state = inr ir ->
  let r := requests_get (query_for a ir) in
  service_failure r ->
  _handle_al_response self w =
    (inl (SATOSAAuthenticationError (state (context w)) (failure_reason r)),
     mkWorld (context w)
       (trace w ++ [EvGet (query_for a ir); EvLog CRITICAL (failure_reason r)]))
  /\ context (_handle_al_response self w).2 = context w
  /\ state (context (_handle_al_response self w).2) !! STATE_KEY = Some saved_state.
Proof.
  intros Hen Ha Hst Hd r Hf.
  rewrite handler_unfold, Hst, Hd.
  rewrite (manage_al_failure self a ir w Hen Ha Hf). by simpl.
Qed.

(** ** Further properties of the module *)

Ltac manage_al_cases self ir w :=
  let Hen := fresh "Hen" in
  let Ha := fresh "Ha" in
  let Hr := fresh "Hr" in
  let a := fresh "a" in
  let U := fresh "U" in
  let T := fresh "T" in
  destruct (enabled self) eqn:Hen;
  [ destruct (settings self) as [a |] eqn:Ha;
    [ destruct (service_cases (requests_get (query_for a ir)))
        as [[U Hr] | [[T Hr] | Hr]];
      [ rewrite (manage_al_200 self a ir w U Hen Ha Hr)
      | rewrite (manage_al_404 self a ir w T Hen Ha Hr)
      | rewrite (manage_al_failure self a ir w Hen Ha Hr) ]
    | rewrite (manage_al_no_settings self ir w Hen Ha) ]
  | rewrite (manage_al_off self ir w Hen) ].


(** X1: a configuration with the ACCOUNT_LINKING section, [enable] absent or
    true, the four entries present and a loadable key builds an enabled
    module holding exactly these entries, the RS256 signing key and the
    endpoint "/handle_account_linking"; one INFO record is logged and the
    session is not touched. *)
Theorem init_enabled_module config cb w base al api red path k :
  BASE config = Some base ->
  ACCOUNT_LINKING config = Some al ->
  cfg_enable al <> Some false ->
  cfg_api_url al = Some api ->
  cfg_redirect_url al = Some red ->
  cfg_sign_key al = Some path ->
  rsa_load path = inr k ->
  __init__ config cb w =
    (inr (mkModule config cb true
            (Some (mkSettings base api red (mkRSAKey k "sig" "RS256")
                     "/handle_account_linking"))),
     mkWorld (context w) (trace w ++ [EvLog INFO "Account linking is active"])).
Proof.
  intros Hb Hal Hen Hapi Hred Hpath Hk. unfold __init__, linking_enabled.
  rewrite Hal, Hb.
  destruct (cfg_enable al) as [[|] |]; [| congruence |];
    run; rewrite Hapi, Hred, Hpath; run; by rewrite Hk.
Qed.

(** X2: when linking is enabled and a required entry is missing from the
    configuration, construction raises [KeyError] for the first missing entry
    in the order BASE, api_url, redirect_url, sign_key; nothing is logged and
    the session is not touched. *)
Theorem init_missing_entry config cb w al :
  ACCOUNT_LINKING config = Some al ->
  linking_enabled config = true ->
  BASE config = None \/ cfg_api_url al = None \/
    cfg_redirect_url al = None \/ cfg_sign_key al = None ->
  __init__ config cb w =
    (inl (KeyError
            match BASE config, cfg_api_url al, cfg_redirect_url al with
            | None, _, _ => "BASE"
            | Some _, None, _ => "api_url"
            | Some _, Some _, None => "redirect_url"
            | Some _, Some _, Some _ => "sign_key"
            end), w).
Proof.
  intros Hal Hen Hmiss. unfold __init__. rewrite Hen.
  destruct (BASE config) as [base |]; run; [| done].
  rewrite Hal; run.
  destruct (cfg_api_url al) as [api |]; run; [| done].
  destruct (cfg_redirect_url al) as [red |]; run; [| done].
  destruct (cfg_sign_key al) as [path |]; run; [| done].
  destruct Hmiss as [? | [? | [? | ?]]]; discriminate.
Qed.

(** X3: when linking is enabled and the key file cannot be loaded, the
    exception of [rsa_load] leaves [__init__] as it is: no module is built,
    nothing is logged. *)
Theorem init_unloadable_key config cb w base al api red path e :
  BASE config = Some base ->
  ACCOUNT_LINKING config = Some al ->
  linking_enabled config = true ->
  cfg_api_url al = Some api ->
  cfg_redirect_url al = Some red ->
  cfg_sign_key al = Some path ->
  rsa_load path = inl e ->
  __init__ config cb w = (inl e, w).
Proof.
  intros Hb Hal Hen Hapi Hred Hpath Hk. unfold __init__. rewrite Hen, Hb. run.
  rewrite Hal; run. rewrite Hapi, Hred, Hpath; run. by rewrite Hk.
Qed.

(** X4: a module that [__init__] returns keeps the configuration and the
    callback it was given, is enabled exactly when the configuration says so,
    and has the attributes set by the enabled branch exactly when it is
    enabled; building it logged one INFO record, issued no request, called
    no callback and left the session as it was. *)
Theorem init_invariant conf cb w self w' :
  __init__ conf cb w = (inr self, w') ->
  config self = conf
  /\ callback_func self = cb
  /\ enabled self = linking_enabled conf
  /\ (enabled self = true <-> is_Some (settings self))
  /\ context w' = context w
  /\ (exists msg, new_events w w' = [EvLog INFO msg]).
Proof.
  unfold __init__. destruct (linking_enabled conf) eqn:Hon.
  - destruct conf as [[base |] [[en [api |] [red |] [path |]] |]];
      run; try discriminate.
    destruct (rsa_load path) as [e | k]; simpl; [discriminate |].
    intros [= <- <-]. simpl. repeat split; try done.
    rewrite new_events_app. by eexists.
  - run. intros [= <- <-]. simpl. repeat split; try done.
    rewrite new_events_app. by eexists.
Qed.


(** X6: [manage_al] and the callback handler change the session state at
    most under [STATE_KEY]: every other key holds afterwards what it held
    before, whatever the service answers and whether or not an exception is
    raised. *)
Theorem session_frame self ir w k :
  k <> STATE_KEY ->
  state (context (manage_al self ir w).2) !! k = state (context w) !! k
  /\ state (context (_handle_al_response self w).2) !! k = state (context w) !! k.
Proof.
  intros Hk.
  assert (forall ir0,
            state (context (manage_al self ir0 w).2) !! k = state (context w) !! k)
    as Hmanage.
  { intros ir0. manage_al_cases self ir0 w; simpl; try done.
    - by apply lookup_delete_ne.
    - by apply lookup_insert_ne. }
  split; [apply Hmanage |].
  rewrite handler_unfold.
  destruct (state (context w) !! STATE_KEY) as [d |]; [| done].
  destruct (from_dict d) as [e | ir0]; [done | apply Hmanage].
Qed.


(** X8: [manage_al] calls the continuation callback at most once; when it
    does, the call is its last action, the callback sees the session state
    [manage_al] ends with, and what the callback returns is what [manage_al]
    returns. *)
Theorem callback_is_last_step self ir w :
  let r := manage_al self ir w in
  callbacks_of (new_events w r.2) = []
  \/ exists ir',
       callbacks_of (new_events w r.2) = [ir']
       /\ last (new_events w r.2) = Some (EvCallback (context r.2) ir')
       /\ r.1 = inr (callback_func self (context r.2) ir').
Proof.
  intros r. subst r.
  manage_al_cases self ir w; simpl; rewrite ?new_events_app, ?new_events_same;
    simpl; eauto.
Qed.

(** X9: the callback handler is re-entrant: with the serialized identity
    pending and the service answering 404 again, it redirects to the approval
    page for the new ticket and the session state is what it was, the same
    pending state being written over itself. *)
Theorem repeated_pending_approval self a ir w T :
  enabled self = true ->
  settings self = Some a ->
  state (context w) !! STATE_KEY = Some (to_dict ir) ->
  requests_get (query_for a ir) = HttpResponse 404 T ->
  _handle_al_response self w =
    (inr (Redirect (redirect_url a +:+ "/" +:+ T)),
     mkWorld (context w)
       (trace w ++ [EvGet (query_for a ir);
                    EvLog INFO "A new ID must be linked by the AL service"])).
Proof.
  intros Hen Ha Hst Hr.
  rewrite handler_unfold, Hst, from_dict_to_dict.
  rewrite (manage_al_404 self a ir w T Hen Ha Hr).
  rewrite (insert_id _ _ _ Hst). by destruct w as [[st] t].
Qed.

(** X10: a module built from a configuration that disables linking has no
    endpoint to register: [register_endpoints] raises [AttributeError], the
    attribute being set on the enabled branch of [__init__] only. *)
Theorem register_endpoints_disabled conf cb w0 :
  linking_enabled conf = false ->
  exists self w1,
    __init__ conf cb w0 = (inr self, w1)
    /\ forall w, register_endpoints self w = (inl (AttributeError "endpoint"), w).
Proof.
  intros Hoff. eexists _, _. split; [by apply init_off |]. done.
Qed.

(** X11: the URL pattern [register_endpoints] binds the handler to and the
    "redirect_endpoint" the service is sent name the same path: the pattern
    is that path between "^" and "$", the redirect endpoint is the proxy base
    URL followed by "/" and that path. *)
Theorem registered_endpoint_is_redirect_endpoint self a iss id w :
  settings self = Some a ->
  let path := "account_linking" +:+ endpoint a in
  register_endpoints self w = (inr ["^" +:+ path +:+ "$"], w)
  /\ requests_of (new_events w (_get_uuid self iss id w).2) =
     [api_url a +:+ "/get_id?jwt=" +:+
      sign_compact
        (json_dumps [("idp", iss); ("id", id);
                     ("redirect_endpoint", proxy_base a +:+ "/" +:+ path)])
        (alg (signing_key a)) [signing_key a]].
Proof.
  intros Ha path. split.
  - unfold register_endpoints. run. by rewrite Ha.
  - by rewrite (_get_uuid_requests self a iss id w Ha).
Qed.

(** X12: on a disabled module the callback handler hands the identity
    rebuilt from the pending state to the continuation callback: no request
    is issued and the pending state stays in the session. *)
Theorem handler_on_disabled_module self saved_state ir w :
  enabled self = false ->
  state (context w) !! STATE_KEY = Some saved_state ->
  from_dict saved_state = inr ir ->
  _handle_al_response self w =
    (inr (callback_func self (context w) ir),
     mkWorld (context w) (trace w ++ [EvCallback (context w) ir])).
Proof.
  intros Hoff Hst Hd. rewrite handler_unfold, Hst, Hd.
  by apply manage_al_off.
Qed.

(** X13: [manage_al] writes a critical log record exactly when it raises an
    authentication error, and the record's message is the message the error
    carries. *)
Theorem critical_log_matches_error self ir w :
  criticals_of (new_events w (manage_al self ir w).2) =
    match (manage_al self ir w).1 with
    | inl (SATOSAAuthenticationError _ msg) => [msg]
    | _ => []
    end.
Proof.
  manage_al_cases self ir w; simpl; rewrite ?new_events_app, ?new_events_same;
    done.
Qed.

End Properties.

(** ** The theorems at work on the example deployment *)

Lemma manage_al_linked_witness :
  let env := Example.collaborators (HttpResponse 200 "acct-9f3") in
  (manage_al Example.self_on Example.identity Example.pending).1 =
    inr (PlainResponse "authenticated as acct-9f3")
  /\ state (context (manage_al Example.self_on Example.identity Example.pending).2)
       !! STATE_KEY = None.
Proof.
  intros env.
  assert (enabled Example.self_on = true) as Hen by reflexivity.
  assert (settings Example.self_on = Some Example.set) as Ha by reflexivity.
  assert (requests_get (query_for Example.set Example.identity) =
          HttpResponse 200 "acct-9f3") as Hr by reflexivity.
  destruct (manage_al_linked (env := env) Example.self_on Example.set Example.identity
              Example.pending "acct-9f3" Hen Ha Hr) as (Hrun & _ & _ & Hst).
  split; [| exact Hst]. rewrite Hrun. reflexivity.
Defined.

Lemma manage_al_pending_approval_witness :
  let env := Example.collaborators (HttpResponse 404 "ticket-77") in
  (manage_al Example.self_on Example.identity Example.fresh).1 =
    inr (Redirect "https://link.example/approve/ticket-77")
  /\ state (context (manage_al Example.self_on Example.identity Example.fresh).2)
       !! STATE_KEY = Some (to_dict Example.identity).
Proof.
  intros env.
  assert (enabled Example.self_on = true) as Hen by reflexivity.
  assert (settings Example.self_on = Some Example.set) as Ha by reflexivity.
  assert (requests_get (query_for Example.set Example.identity) =
          HttpResponse 404 "ticket-77") as Hr by reflexivity.
  destruct (manage_al_pending_approval (env := env) Example.self_on Example.set
              Example.identity Example.fresh "ticket-77" Hen Ha Hr)
    as (Hres & _ & Hst & _).
  split; [exact Hres | exact Hst].
Defined.

Lemma service_failure_is_fatal_witness :
  let env := Example.collaborators (HttpResponse 500 "oops") in
  (manage_al Example.self_on Example.identity Example.fresh).1 =
    inl (SATOSAAuthenticationError ∅
           "Got status code '500' from account linking service")
  /\ context (manage_al Example.self_on Example.identity Example.fresh).2 =
     context Example.fresh.
Proof.
  intros env.
  assert (enabled Example.self_on = true) as Hen by reflexivity.
  assert (settings Example.self_on = Some Example.set) as Ha by reflexivity.
  assert (service_failure (requests_get (query_for Example.set Example.identity)))
    as Hf by (simpl; lia).
  destruct (service_failure_is_fatal (env := env) Example.self_on Example.set
              Example.identity Example.fresh Hen Ha Hf) as (_ & Hrun & Hctx).
  split; [| exact Hctx]. rewrite Hrun. reflexivity.
Defined.

Lemma disabled_is_pass_through_witness :
  let env := Example.collaborators ConnectionError in
  exists self w1,
    __init__ (Example.cfg (Some false)) Example.callback Example.fresh = (inr self, w1)
    /\ (manage_al self Example.identity Example.pending).1 =
       inr (PlainResponse "authenticated as abc123")
    /\ context (manage_al self Example.identity Example.pending).2 =
       context Example.pending.
Proof.
  intros env.
  assert (linking_enabled (Example.cfg (Some false)) = false) as Hoff
    by reflexivity.
  destruct (disabled_is_pass_through (env := env) (Example.cfg (Some false)) Example.callback
              Example.fresh Hoff) as (self & w1 & Hinit & _ & Hrun).
  exists self, w1. split; [exact Hinit |].
  destruct (Hrun Example.identity Example.pending) as (Hres & _ & _ & Hctx).
  split; [| exact Hctx]. rewrite Hres. reflexivity.
Defined.

Lemma outbound_request_witness :
  let env := Example.collaborators ConnectionError in
  requests_of
    (new_events Example.fresh
       (_get_uuid Example.self_on "https://idp.example" "abc123" Example.fresh).2) =
  ["https://link.example/api/get_id?jwt=RS256.{'idp': 'https://idp.example', 'id': 'abc123', 'redirect_endpoint': 'https://proxy.example/account_linking/handle_account_linking'}.sig"].
Proof.
  intros env.
  assert (__init__ (Example.cfg None) Example.callback Example.fresh =
          (inr Example.self_on,
           mkWorld (mkContext ∅) [EvLog INFO "Account linking is active"]))
    as Hinit by reflexivity.
  assert (settings Example.self_on = Some Example.set) as Ha by reflexivity.
  destruct (outbound_request (env := env) (Example.cfg None) Example.callback Example.fresh
              Example.self_on _ Example.set Hinit Ha) as (_ & _ & Hreq & _).
  rewrite Hreq. reflexivity.
Defined.

Lemma resumption_equivalence_witness :
  let env := Example.collaborators (HttpResponse 200 "acct-9f3") in
  _handle_al_response Example.self_on Example.pending =
    manage_al Example.self_on Example.identity Example.fresh
  /\ (_handle_al_response Example.self_on Example.pending).1 =
     inr (PlainResponse "authenticated as acct-9f3").
Proof.
  intros env.
  assert (enabled Example.self_on = true) as Hen by reflexivity.
  assert (settings Example.self_on = Some Example.set) as Ha by reflexivity.
  assert (state (context Example.pending) !! STATE_KEY =
          Some (to_dict Example.identity)) as Hst by reflexivity.
  assert (requests_get (query_for Example.set Example.identity) =
          HttpResponse 200 "acct-9f3") as Hr by reflexivity.
  destruct (resumption_equivalence (env := env) Example.self_on Example.set Example.identity
              Example.pending Hen Ha Hst) as (_ & _ & H200).
  destruct (H200 "acct-9f3" Hr) as (Hrun & _ & Hdirect).
  split.
  - apply Hdirect; reflexivity.
  - rewrite Hrun. reflexivity.
Defined.

Lemma clear_absent_is_tolerated_witness :
  let env := Example.collaborators (HttpResponse 200 "acct-9f3") in
  manage_al Example.self_on Example.identity Example.fresh =
    (inr (PlainResponse "authenticated as acct-9f3"),
     mkWorld (mkContext ∅)
       [EvGet (query_for Example.set Example.identity);
        EvLog INFO "issuer/id pair is linked in AL service";
        EvCallback (mkContext ∅) (set_user_id "acct-9f3" Example.identity)]).
Proof.
  intros env.
  assert (state (context Example.fresh) !! STATE_KEY = None) as Hnone
    by reflexivity.
  assert (enabled Example.self_on = true) as Hen by reflexivity.
  assert (settings Example.self_on = Some Example.set) as Ha by reflexivity.
  assert (requests_get (query_for Example.set Example.identity) =
          HttpResponse 200 "acct-9f3") as Hr by reflexivity.
  destruct (clear_absent_is_tolerated (env := env) Example.self_on Example.set
              Example.identity Example.fresh "acct-9f3" Hnone Hen Ha Hr)
    as (_ & _ & Hrun).
  exact Hrun.
Defined.

Lemma failed_resumption_keeps_pending_state_witness :
  let env := Example.collaborators ConnectionError in
  (_handle_al_response Example.self_on Example.pending).1 =
    inl (SATOSAAuthenticationError (state (context Example.pending))
           "Could not connect to account linking service")
  /\ state (context (_handle_al_response Example.self_on Example.pending).2)
       !! STATE_KEY = Some (to_dict Example.identity).
Proof.
  intros env.
  assert (enabled Example.self_on = true) as Hen by reflexivity.
  assert (settings Example.self_on = Some Example.set) as Ha by reflexivity.
  assert (state (context Example.pending) !! STATE_KEY =
          Some (to_dict Example.identity)) as Hst by reflexivity.
  assert (from_dict (to_dict Example.identity) = inr Example.identity) as Hd
    by (vm_compute; reflexivity).
  assert (service_failure (requests_get (query_for Example.set Example.identity)))
    as Hf by (simpl; exact I).
  destruct (failed_resumption_keeps_pending_state (env := env) Example.self_on Example.set
              (to_dict Example.identity) Example.identity Example.pending
              Hen Ha Hst Hd Hf) as (Hrun & _ & Hkept).
  split; [| exact Hkept]. rewrite Hrun. reflexivity.
Defined.

(** C3, as stated, fails: the handler's load does not remove the pending
    state.  With a pending state in the session and a service answering 500,
    the handler leaves the pending state where it was, whereas a load that
    reads and removes it, as the specification words it, leaves none. *)
Lemma handler_load_keeps_pending_state :
  let env := Example.collaborators (HttpResponse 500 "oops") in
  state (context Example.pending) !! STATE_KEY = Some (to_dict Example.identity)
  /\ (StateOps.get STATE_KEY Example.pending).2 = Example.pending
  /\ (load_and_clear Example.pending).2 <> Example.pending
  /\ state (context (_handle_al_response Example.self_on Example.pending).2)
       !! STATE_KEY = Some (to_dict Example.identity)
  /\ state (context (spec_handle_al_response Example.self_on Example.pending).2)
       !! STATE_KEY = None
  /\ _handle_al_response Example.self_on Example.pending <>
     spec_handle_al_response Example.self_on Example.pending.
Proof.
  intros env.
  assert (state (context (_handle_al_response Example.self_on Example.pending).2)
            !! STATE_KEY = Some (to_dict Example.identity)) as Hcode
    by (vm_compute; reflexivity).
  assert (state (context (spec_handle_al_response Example.self_on Example.pending).2)
            !! STATE_KEY = None) as Hspec
    by (vm_compute; reflexivity).
  split; [vm_compute; reflexivity |].
  split; [vm_compute; reflexivity |]. split.
  { intros Heq.
    apply (f_equal (fun w => state (context w) !! STATE_KEY)) in Heq.
    vm_compute in Heq. discriminate. }
  split; [exact Hcode |]. split; [exact Hspec |].
  intros Heq. rewrite Heq in Hcode. congruence.
Qed.

(** The example of the specification: the service first answers 404 with
    ticket-77, then, on the callback, 200 with acct-9f3. *)
Example spec_example :
  let first := manage_al (env := Example.collaborators (HttpResponse 404 "ticket-77"))
                 Example.self_on Example.identity Example.fresh in
  let later := _handle_al_response
                 (env := Example.collaborators (HttpResponse 200 "acct-9f3"))
                 Example.self_on (mkWorld (context first.2) []) in
  first.1 = inr (Redirect "https://link.example/approve/ticket-77")
  /\ later.1 = inr (PlainResponse "authenticated as acct-9f3")
  /\ user_id <$> callbacks_of (trace later.2) = ["acct-9f3"]
  /\ state (context later.2) !! STATE_KEY = None.
Proof. vm_compute. repeat split; reflexivity. Qed.

(** ** The further properties on the example deployment *)

Lemma init_enabled_module_witness :
  let env := Example.collaborators ConnectionError in
  __init__ (Example.cfg (Some true)) Example.callback Example.fresh =
    (inr (mkModule (Example.cfg (Some true)) Example.callback true
            (Some Example.set)),
     mkWorld (mkContext ∅) [EvLog INFO "Account linking is active"]).
Proof.
  intros env.
  assert (cfg_enable (mkALConfig (Some true) (Some "https://link.example/api")
                        (Some "https://link.example/approve") (Some "/etc/al.key"))
          <> Some false) as Hen by discriminate.
  exact (init_enabled_module (env := env) (Example.cfg (Some true))
           Example.callback Example.fresh _ _ _ _ _ _
           eq_refl eq_refl Hen eq_refl eq_refl eq_refl eq_refl).
Defined.

Lemma init_missing_entry_witness :
  let env := Example.collaborators ConnectionError in
  __init__ Example.cfg_without_api_url Example.callback Example.fresh =
    (inl (KeyError "api_url"), Example.fresh).
Proof.
  intros env.
  assert (linking_enabled Example.cfg_without_api_url = true) as Hon
    by reflexivity.
  exact (init_missing_entry (env := env) Example.cfg_without_api_url
           Example.callback Example.fresh _ eq_refl Hon
           (or_intror (or_introl eq_refl))).
Defined.

Lemma init_unloadable_key_witness :
  __init__ (env := Example.no_key_file) (Example.cfg None) Example.callback
    Example.fresh =
    (inl (IOError "/etc/al.key"), Example.fresh).
Proof.
  assert (linking_enabled (Example.cfg None) = true) as Hon by reflexivity.
  exact (init_unloadable_key (env := Example.no_key_file) (Example.cfg None)
           Example.callback Example.fresh _ _ _ _ _ _
           eq_refl eq_refl Hon eq_refl eq_refl eq_refl eq_refl).
Defined.

Lemma init_invariant_witness :
  let env := Example.collaborators ConnectionError in
  enabled Example.self_on = linking_enabled (Example.cfg None)
  /\ (enabled Example.self_on = true <-> is_Some (settings Example.self_on)).
Proof.
  intros env.
  assert (__init__ (Example.cfg None) Example.callback Example.fresh =
          (inr Example.self_on,
           mkWorld (mkContext ∅) [EvLog INFO "Account linking is active"]))
    as Hinit by reflexivity.
  destruct (init_invariant (env := env) _ _ _ _ _ Hinit)
    as (_ & _ & Hen & Hwf & _).
  split; [exact Hen | exact Hwf].
Defined.


Lemma session_frame_witness :
  let env := Example.collaborators (HttpResponse 200 "acct-9f3") in
  state (context (_handle_al_response Example.self_on Example.busy).2)
    !! "CONSENT" = Some (PStr "given").
Proof.
  intros env.
  assert ("CONSENT" <> STATE_KEY) as Hk by discriminate.
  destruct (session_frame (env := env) Example.self_on Example.identity
              Example.busy "CONSENT" Hk) as [_ Hframe].
  rewrite Hframe. vm_compute. reflexivity.
Defined.

Lemma repeated_pending_approval_witness :
  let env := Example.collaborators (HttpResponse 404 "ticket-78") in
  (_handle_al_response Example.self_on Example.pending).1 =
    inr (Redirect "https://link.example/approve/ticket-78")
  /\ context (_handle_al_response Example.self_on Example.pending).2 =
     context Example.pending.
Proof.
  intros env.
  assert (enabled Example.self_on = true) as Hen by reflexivity.
  assert (settings Example.self_on = Some Example.set) as Ha by reflexivity.
  assert (state (context Example.pending) !! STATE_KEY =
          Some (to_dict Example.identity)) as Hst by reflexivity.
  assert (requests_get (query_for Example.set Example.identity) =
          HttpResponse 404 "ticket-78") as Hr by reflexivity.
  rewrite (repeated_pending_approval (env := env) Example.self_on Example.set
             Example.identity Example.pending "ticket-78" Hen Ha Hst Hr).
  split; reflexivity.
Defined.

Lemma register_endpoints_disabled_witness :
  let env := Example.collaborators ConnectionError in
  exists self w1,
    __init__ (Example.cfg (Some false)) Example.callback Example.fresh = (inr self, w1)
    /\ (register_endpoints self Example.fresh).1 = inl (AttributeError "endpoint").
Proof.
  intros env.
  assert (linking_enabled (Example.cfg (Some false)) = false) as Hoff
    by reflexivity.
  destruct (register_endpoints_disabled (env := env) (Example.cfg (Some false))
              Example.callback Example.fresh Hoff) as (self & w1 & Hinit & Hreg).
  exists self, w1. split; [exact Hinit |]. by rewrite Hreg.
Defined.

Lemma registered_endpoint_is_redirect_endpoint_witness :
  let env := Example.collaborators ConnectionError in
  register_endpoints Example.self_on Example.fresh =
    (inr ["^account_linking/handle_account_linking$"], Example.fresh).
Proof.
  intros env.
  assert (settings Example.self_on = Some Example.set) as Ha by reflexivity.
  destruct (registered_endpoint_is_redirect_endpoint (env := env)
              Example.self_on Example.set "https://idp.example" "abc123"
              Example.fresh Ha) as [Hreg _].
  exact Hreg.
Defined.

Lemma handler_on_disabled_module_witness :
  let env := Example.collaborators ConnectionError in
  _handle_al_response Example.self_off Example.pending =
    (inr (PlainResponse "authenticated as abc123"),
     mkWorld (context Example.pending)
       [EvCallback (context Example.pending) Example.identity]).
Proof.
  intros env.
  assert (enabled Example.self_off = false) as Hoff by reflexivity.
  assert (state (context Example.pending) !! STATE_KEY =
          Some (to_dict Example.identity)) as Hst by reflexivity.
  assert (from_dict (to_dict Example.identity) = inr Example.identity) as Hd
    by (vm_compute; reflexivity).
  exact (handler_on_disabled_module (env := env) Example.self_off
           (to_dict Example.identity) Example.identity Example.pending
           Hoff Hst Hd).
Defined.
